(** * iboothme event ideation: the orchestration workflow of [idea_new.py]

    A shallow embedding of the Python module [idea_new.py] and the proofs of
    the properties its specification states.

    Conventions of the embedding.
    - A Python [str] is a [string]: the UTF-8 bytes of the text.  Searching,
      splitting and comparing are exact on that representation (UTF-8 keeps
      the code point order and never lets one character's bytes occur inside
      another's).  Character classes and case mappings ([isspace], [lower],
      [title]) are those of the ASCII range; bytes of non-ASCII characters
      are neither white space nor cased.
    - The text-generation service and the random generator are the two
      outside collaborators.  The service is an oracle that answers a request
      given the requests made before it; the generator is a sequence of raw
      draws.  Every request is recorded in a trace.
    - A Python exception is a value [exn] carrying the text of [str(e)];
      code that may raise lives in the monad [M].
    - The diagnostic [print] calls are not modelled. *)

From Stdlib Require Import Ascii String.
From stdpp Require Import strings list sorting gmap pretty.

(** ** Python string operations used by the module *)

Module PyStr.

(** [str.isspace] on one character (ASCII range): TAB, LF, VT, FF, CR,
    the four separators FS, GS, RS, US, and the space. *)
Definition isspace (c : ascii) : bool :=
  let n := nat_of_ascii c in
  (Nat.leb 9 n && Nat.leb n 13) || (Nat.leb 28 n && Nat.leb n 32).

Definition isupper (c : ascii) : bool :=
  let n := nat_of_ascii c in Nat.leb 65 n && Nat.leb n 90.

Definition islower (c : ascii) : bool :=
  let n := nat_of_ascii c in Nat.leb 97 n && Nat.leb n 122.

Definition iscased (c : ascii) : bool := isupper c || islower c.

Definition lower_char (c : ascii) : ascii :=
  if isupper c then ascii_of_nat (nat_of_ascii c + 32) else c.

Definition upper_char (c : ascii) : ascii :=
  if islower c then ascii_of_nat (nat_of_ascii c - 32) else c.

(** [s.lower()] *)
Fixpoint lower (s : string) : string :=
  match s with
  | EmptyString => EmptyString
  | String c s' => String (lower_char c) (lower s')
  end.

(** [s.title()]: a cased character is upper-cased when the character
    before it is not cased, and lower-cased otherwise. *)
Fixpoint title_go (previous_is_cased : bool) (s : string) : string :=
  match s with
  | EmptyString => EmptyString
  | String c s' =>
      String (if previous_is_cased then lower_char c else upper_char c)
             (title_go (iscased c) s')
  end.

Definition title (s : string) : string := title_go false s.

(** [s.lstrip()], [s.rstrip()], [s.strip()] *)
Fixpoint lstrip (s : string) : string :=
  match s with
  | EmptyString => EmptyString
  | String c s' => if isspace c then lstrip s' else s
  end.

Fixpoint rstrip (s : string) : string :=
  match s with
  | EmptyString => EmptyString
  | String c s' =>
      match rstrip s' with
      | EmptyString => if isspace c then EmptyString else String c EmptyString
      | r => String c r
      end
  end.

Definition strip (s : string) : string := rstrip (lstrip s).

(** Truth value of a string: [bool(s)], false exactly on the empty one. *)
Definition truthy (s : string) : bool :=
  match s with EmptyString => false | String _ _ => true end.

(** Splitting at every character of a class: [s.split(c)] for a one
    character separator and [re.split] on a character class.  The result
    is never empty: a string with no separator comes back whole. *)
Fixpoint split_at (p : ascii → bool) (s : string) : list string :=
  match s with
  | EmptyString => [EmptyString]
  | String c s' =>
      if p c then EmptyString :: split_at p s'
      else match split_at p s' with
           | w :: ws => String c w :: ws
           | [] => [String c EmptyString]
           end
  end.

(** [s.startswith(p)] *)
Fixpoint startswith (p s : string) : bool :=
  match p, s with
  | EmptyString, _ => true
  | String a p', String b s' => if Ascii.eqb a b then startswith p' s' else false
  | String _ _, EmptyString => false
  end.

(** [needle in s] *)
Fixpoint contains (needle s : string) : bool :=
  startswith needle s ||
  match s with
  | EmptyString => false
  | String _ s' => contains needle s'
  end.

Fixpoint drop (n : nat) (s : string) : string :=
  match n, s with
  | O, _ => s
  | S n', String _ s' => drop n' s'
  | S _, EmptyString => EmptyString
  end.

(** The leftmost occurrence of a non-empty separator: what is before it
    and what is after it. *)
Fixpoint find_sep (sep s : string) : option (string * string) :=
  if startswith sep s then Some (EmptyString, drop (String.length sep) s)
  else match s with
       | EmptyString => None
       | String c s' =>
           match find_sep sep s' with
           | Some (l, r) => Some (String c l, r)
           | None => None
           end
       end.

(** [s.split(sep, 1)] for a non-empty [sep]: one part when [sep] does not
    occur, two parts around its leftmost occurrence otherwise. *)
Definition split1 (sep s : string) : list string :=
  match find_sep sep s with
  | Some (l, r) => [l; r]
  | None => [s]
  end.

(** [sep.join(parts)] *)
Fixpoint join (sep : string) (parts : list string) : string :=
  match parts with
  | [] => EmptyString
  | [x] => x
  | x :: rest => x +:+ sep +:+ join sep rest
  end.

(** The line feed, as a character and as a string. *)
Definition LF : ascii := "010"%char.
Definition nl : string := String LF EmptyString.

(** The double quote. *)
Definition dq : string := String "034"%char EmptyString.

(** Every line followed by a line feed. *)
Fixpoint unlines (ls : list string) : string :=
  match ls with
  | [] => EmptyString
  | l :: rest => l +:+ nl +:+ unlines rest
  end.

End PyStr.

Import PyStr.

(** ** Exceptions, the outside world, and code that may raise *)

(** A Python exception: its class and the text [str(e)] gives. *)
Record exn := Exn { exn_class : string; exn_str : string }.

Inductive result (A : Type) : Type :=
| Ok (a : A)
| Raise (e : exn).
Arguments Ok {A} a.
Arguments Raise {A} e.

(** The two request shapes of the generation service.  The temperature is
    kept in hundredths (0.7 is 70). *)
Inductive request :=
| ChatCompletion (model content : string) (temperature max_tokens : nat)
| WebSearch (model input : string).

(** The outside world of one run.
    - [chat_completion history rq] is what
      [client.chat.completions.create(...).choices[0].message.content]
      evaluates to: a text, [None], or an exception raised on the way.
    - [web_search history rq] is what
      [client.responses.create(...).output_text] evaluates to.
    - [raw_draw i] is the i-th raw draw of the random generator. *)
Record World := {
  chat_completion : list request → request → result (option string);
  web_search : list request → request → result string;
  raw_draw : nat → nat
}.

(** What a run has done so far: the requests sent, oldest first, and the
    number of random draws consumed. *)
Record state := State { trace : list request; draws : nat }.

Definition M (A : Type) : Type := state → result A * state.

Definition ret {A} (a : A) : M A := λ st, (Ok a, st).

Definition raise {A} (e : exn) : M A := λ st, (Raise e, st).

Definition bind {A B} (m : M A) (k : A → M B) : M B :=
  λ st, match m st with
        | (Ok a, st') => k a st'
        | (Raise e, st') => (Raise e, st')
        end.

(** [try: m  except Exception as e: ...] with the outcome handed to the
    code after the [try]. *)
Definition attempt {A} (m : M A) : M (result A) :=
  λ st, let '(r, st') := m st in (Ok r, st').

Global Instance M_ret : MRet M := @ret.
Global Instance M_bind : MBind M := λ A B k m, bind m k.

(** [for x in xs: body] where the body updates an accumulator. *)
Fixpoint for_each {A B} (xs : list A) (body : B → A → M B) (acc : B) : M B :=
  match xs with
  | [] => ret acc
  | x :: rest => acc' ← body acc x; for_each rest body acc'
  end.

(** ** The random module *)

Section Random.
Context (W : World).

(** [random._randbelow(n)]: some integer below [n], taken from the next
    raw draw. *)
Definition randbelow (n : nat) : M nat :=
  λ st, (Ok (match n with O => O | S _ => raw_draw W (draws st) `mod` n end),
         State (trace st) (S (draws st))).

(** [random.choice(seq)] *)
Definition random_choice {A} (seq : list A) : M A :=
  j ← randbelow (length seq);
  match seq !! j with
  | Some x => ret x
  | None => raise (Exn "IndexError" "Cannot choose from an empty sequence")
  end.

(** The selection loop of [random.sample]: [m] items of [pool] are not
    selected yet, they stand at [pool[0:m]]; the chosen one leaves and the
    last of them moves into its place. *)
Fixpoint sample_loop (pool : list string) (m k : nat) : M (list string) :=
  match k with
  | O => ret []
  | S k' =>
      j ← randbelow m;
      match pool !! j, pool !! (m - 1) with
      | Some chosen, Some last =>
          rest ← sample_loop (<[j := last]> pool) (m - 1) k';
          ret (chosen :: rest)
      | _, _ => raise (Exn "IndexError" "list index out of range")
      end
  end.

(** [random.sample(population, k)].  CPython selects with the pool above
    for a population of at most 21 items (when k is at most 5); for a
    larger one it draws positions and redraws those already selected.  Both
    select [k] different positions of the population; the pool form stands
    for both here. *)
Definition random_sample (population : list string) (k : nat) : M (list string) :=
  let n := length population in
  if Nat.ltb n k
  then raise (Exn "ValueError" "Sample larger than population or is negative")
  else sample_loop population n k.

End Random.

(** ** The module [idea_new.py] *)

(** A Python [dict] from names to descriptions, in insertion order; its keys
    are pairwise different ([dict_wf]). *)
Definition dict := list (string * string).

Definition dict_keys (d : dict) : list string := List.map fst d.

Fixpoint dict_get (d : dict) (name : string) : option string :=
  match d with
  | [] => None
  | (k, v) :: rest => if String.eqb k name then Some v else dict_get rest name
  end.


(** [str(x)] of an optional text inside an f-string. *)
Definition format_opt (x : option string) : string :=
  match x with Some s => s | None => "None" end.

Section IdeaNew.
Context (W : World) (PRODUCT_CATALOG : dict).

(** [client.chat.completions.create(model, messages=[user content],
    temperature, max_tokens)] followed by [.choices[0].message.content] *)
Definition chat (model content : string) (temperature max_tokens : nat)
  : M (option string) :=
  λ st, let rq := ChatCompletion model content temperature max_tokens in
        (chat_completion W (trace st) rq, State (trace st ++ [rq]) (draws st)).

(** [client.responses.create(model, tools=[web_search_preview], input)]
    followed by [.output_text] *)
Definition responses (model input : string) : M string :=
  λ st, let rq := WebSearch model input in
        (web_search W (trace st) rq, State (trace st ++ [rq]) (draws st)).

Definition product_block (name desc : string) : string :=
  "**" +:+ name +:+ "**" +:+ nl +:+ desc.

Definition append_description (entries : list string) (name : string) : list string :=
  match dict_get PRODUCT_CATALOG name with
  | Some desc => if truthy desc then entries ++ [product_block name desc] else entries
  | None => entries
  end.

Definition get_product_descriptions (product_names : list string) : string :=
  let entries := foldl append_description [] product_names in
  join (nl +:+ nl) entries.

(** [re.split(r'[,\n]', raw)]; a [raw] that is [None] raises. *)
Definition comma_or_newline (c : ascii) : bool :=
  Ascii.eqb c ","%char || Ascii.eqb c LF.

Definition re_split (raw : option string) : M (list string) :=
  match raw with
  | Some text => ret (split_at comma_or_newline text)
  | None => raise (Exn "TypeError" "expected string or bytes-like object, got 'NoneType'")
  end.

(** [[kw.strip().lower() for kw in parts if kw.strip()]] *)
Definition normalize (parts : list string) : list string :=
  List.map (λ kw, lower (strip kw)) (List.filter (λ kw, truthy (strip kw)) parts).

Definition extract_keywords_prompt (paragraph : string) : string :=
  nl +:+ unlines [
    "You are an expert in experiential event planning.";
    "";
    "Extract 5-10 short, specific, and thematic keywords or concepts from the event description below. These will be used to inspire immersive, tech-powered event ideas.";
    "";
    "Each keyword should be 2-4 words long and describe a concrete idea or theme (e.g., " +:+ dq +:+ "photo booths" +:+ dq +:+ ", " +:+ dq +:+ "smart vending" +:+ dq +:+ ", " +:+ dq +:+ "interactive storytelling" +:+ dq +:+ ").";
    "";
    "Event Description:";
    dq +:+ paragraph +:+ dq;
    "";
    "Return the keywords as a comma-separated list."
  ].

Definition extract_keywords (paragraph : string) : M (list string) :=
  raw ← chat "gpt-4" (extract_keywords_prompt paragraph) 70 200;
  parts ← re_split raw;
  ret (normalize parts).

Definition title_and_link_prompt (title link : string) : string :=
  nl +:+ unlines [
    "You are an expert in event innovation.";
    "";
    "Given the title and link below, extract 3-5 short, specific, and meaningful keywords or themes (2-4 words each) that describe what the page is about.";
    "";
    "Title: " +:+ title;
    "Link: " +:+ link;
    "";
    "Return the keywords as a comma-separated list."
  ].

Definition extract_keywords_from_title_and_link (title link : string) : M (list string) :=
  raw ← chat "gpt-4" (title_and_link_prompt title link) 60 150;
  parts ← re_split raw;
  ret (normalize parts).

(** The body of the loop over the lines of the search response. *)
Definition scan_line (results : list (string * string)) (line : string)
  : list (string * string) :=
  if contains "http" line then
    match split1 " - " line with
    | [p0; p1] => results ++ [(strip p0, strip p1)]
    | _ => let url := strip line in results ++ [(url, url)]
    end
  else results.

Definition parse_links (content : string) : list (string * string) :=
  let results := foldl scan_line [] (split_at (Ascii.eqb LF) content) in
  take 10 results.

Definition search_input (keywords : list string) : string :=
  "Generate 10 useful URLs for experiential event ideas or iboothme.com inspiration related to the keywords: "
  +:+ join ", " keywords.

Definition search_similar_events_and_products_openai (keywords : list string)
  : M (list (string * string)) :=
  let input_text := search_input keywords in
  r ← attempt (content ← responses "gpt-4.1" input_text;
               ret (parse_links content));
  match r with
  | Ok results => ret results
  | Raise e => ret []
  end.

Definition game_clause : string :=
  "Include at least two game-related ideas (e.g., quiz game, vending challenge).".

(** [any("game" in kw for kw in all_keywords)] *)
Definition include_games (all_keywords : list string) : bool :=
  existsb (contains "game") all_keywords.

Definition game_instruction (all_keywords : list string) : string :=
  if include_games all_keywords then game_clause else "".

Definition search_summary (search_links : list (string * string)) : string :=
  join nl (List.map (λ '(title, url), "- " +:+ title +:+ ": " +:+ url) search_links).

(** The lines of the prompt, between the opening and the closing triple
    quote. *)
Definition ideas_prompt_lines (paragraph product_info : string)
    (search_links : list (string * string)) (all_keywords : list string)
    (idea_count : nat) : list string :=
  [
    "You are an expert event strategist for iboothme, a company offering creative experiences like AI photo booths, smart vending machines, audio booths, personalization stations, and immersive visual storytelling.";
    "";
    "Below are full descriptions of three randomly selected iboothme products, to keep all ideas on-brand:";
    product_info;
    "";
    "Based on the event description below, generate " +:+ pretty idea_count +:+ " unique and diverse iboothme-powered event ideas.";
    "Make sure that the syntax of the brand is always " +:+ dq +:+ "iboothme" +:+ dq +:+ " (all lowercase).";
    "";
    "**Event Description:**";
    paragraph;
    "";
    "**Inspiration from Related Ideas:**";
    search_summary search_links;
    "";
    "💡 **Your Task:**";
    "Create ideas that are immersive, memorable, and creatively use iboothme's photo, video, and audio-based technologies. Do not use AR, VR, projection mapping, or other tech-heavy elements.";
    "";
    "You must include:";
    "- At least two game-related ideas";
    "- Studio Ghibli-inspired visuals in one idea";
    "- Personalized giveaways (e.g., custom t-shirts, stickers, Labibu dolls)";
    game_instruction all_keywords;
    "";
    "❗ Important:";
    "- Avoid AR, VR, holograms, or projection domes";
    "- Do not repeat photo‑booth formats";
    "- Every idea should have a creative title";
    "- Each idea should be described in a paragraph";
    "- Immediately after, write a second paragraph describing the user journey flow";
    "";
    "Return **only** the final ideas in markdown format."
  ].

Definition ideas_prompt (paragraph product_info : string)
    (search_links : list (string * string)) (all_keywords : list string)
    (idea_count : nat) : string :=
  nl +:+ unlines
    (ideas_prompt_lines paragraph product_info search_links all_keywords idea_count).

Definition generate_event_ideas (paragraph product_info : string)
    (search_links : list (string * string)) (all_keywords : list string)
    (idea_count : nat) : M (option string) :=
  chat "gpt-4"
       (ideas_prompt paragraph product_info search_links all_keywords idea_count)
       95 1500.

(** [sorted(set(base_kw + link_kw))] *)
Definition merge_keywords (base_kw link_kw : list string) : list string :=
  merge_sort String.le (elements (list_to_set (base_kw ++ link_kw) : gset string)).

(** Stage 1: [random.sample(list(PRODUCT_CATALOG.keys()), k=4)] and the
    descriptions of the products drawn. *)
Definition select_products : M (list string * string) :=
  gadget_names ← random_sample W (dict_keys PRODUCT_CATALOG) 4;
  ret (gadget_names, get_product_descriptions gadget_names).

(** The loop over the links found, filling [link_kw]. *)
Definition extend_link_keywords (link_kw : list string) (l : string * string)
  : M (list string) :=
  let '(t, u) := l in
  kws ← extract_keywords_from_title_and_link t u;
  ret (link_kw ++ kws).

(** Stage 2: base keywords, inspiration links, keywords of each link. *)
Definition gather_keywords (paragraph : string)
  : M (list (string * string) * list string) :=
  base_kw ← extract_keywords paragraph;
  links ← search_similar_events_and_products_openai base_kw;
  link_kw ← for_each links extend_link_keywords [];
  ret (links, merge_keywords base_kw link_kw).

(** Stage 3: [random.choice([5,6,7,8])] and the generation call. *)
Definition generate_ideas (paragraph product_info : string)
    (links : list (string * string)) (all_kw : list string) : M (option string) :=
  idea_count ← random_choice W [5; 6; 7; 8];
  generate_event_ideas paragraph product_info links all_kw idea_count.

Definition summary_prompt (kw : string) : string :=
  "Give a short one-line event idea description using the keyword: " +:+ kw.

Definition bare_bullet (kw : string) : string := "- **" +:+ title kw +:+ "**".

Definition full_bullet (kw desc : string) : string :=
  "- **" +:+ title kw +:+ "**: " +:+ desc.

(** [r....content.strip()]: [None] has no [strip]. *)
Definition content_strip (raw : option string) : M string :=
  match raw with
  | Some text => ret (strip text)
  | None => raise (Exn "AttributeError" "'NoneType' object has no attribute 'strip'")
  end.

(** Stage 4, the body of the loop over [all_kw[:10]]. *)
Definition summarize_keyword (summaries : list string) (kw : string)
  : M (list string) :=
  r ← attempt (raw ← chat "gpt-4" (summary_prompt kw) 60 60;
               desc ← content_strip raw;
               ret (full_bullet kw desc));
  match r with
  | Ok bullet => ret (summaries ++ [bullet])
  | Raise e => ret (summaries ++ [bare_bullet kw])
  end.

Definition summarize (all_kw : list string) : M (list string) :=
  for_each (take 10 all_kw) summarize_keyword [].

Definition validation_message : string := "❌ Please enter an event description.".

(** Stage 5: the document returned. *)
Definition assemble (summary_md : string) (ideas_md : option string) : string :=
  nl +:+ unlines [
    "🌐 **Relevant Keywords Summary:**  ";
    summary_md;
    "";
    format_opt ideas_md
  ].

(** Stages 3 to 5, once the keywords are there. *)
Definition ideas_and_summary (paragraph product_info : string)
    (links : list (string * string)) (all_kw : list string) : M string :=
  r3 ← attempt (generate_ideas paragraph product_info links all_kw);
  match r3 with
  | Raise e => ret ("❌ Error generating ideas: " +:+ exn_str e)
  | Ok ideas_md =>
      summaries ← summarize all_kw;
      ret (assemble (join nl summaries) ideas_md)
  end.

Definition main_workflow (paragraph : string) : M string :=
  if negb (truthy (strip paragraph)) then ret validation_message
  else
    r1 ← attempt select_products;
    match r1 with
    | Raise e => ret ("❌ Error selecting products: " +:+ exn_str e)
    | Ok (gadget_names, product_info) =>
        r2 ← attempt (gather_keywords paragraph);
        match r2 with
        | Raise e =>
            ret ("❌ Error in keyword extraction or web search: " +:+ exn_str e)
        | Ok (links, all_kw) =>
            ideas_and_summary paragraph product_info links all_kw
        end
    end.

End IdeaNew.

(** A run starts with nothing sent and nothing drawn. *)
Definition start : state := State [] 0.

(** ** Notions the specification uses *)


(** [needle] occurs in [s]. *)
Definition occurs (needle s : string) : Prop :=
  ∃ a b, s = a +:+ needle +:+ b.

(** [l] and [r] are what stands before and after the first occurrence of
    [sep] in [s]. *)
Definition first_split (sep s l r : string) : Prop :=
  s = l +:+ sep +:+ r ∧
  ∀ l' r', s = l' +:+ sep +:+ r' → String.length l ≤ String.length l'.

(** The link a kept line stands for. *)
Definition link_of_line (line : string) (link : string * string) : Prop :=
  (∃ l r, first_split " - " line l r ∧ link = (strip l, strip r)) ∨
  (¬ occurs " - " line ∧ link = (strip line, strip line)).

(** Fragments put back together, one separator between two neighbours. *)
Fixpoint weave (frags : list string) (seps : list ascii) : string :=
  match frags, seps with
  | f :: fs, c :: cs => f +:+ String c (weave fs cs)
  | f :: _, [] => f
  | [], _ => EmptyString
  end.

(** No character of the text is in the class. *)
Fixpoint free_of (p : ascii → bool) (s : string) : bool :=
  match s with
  | EmptyString => true
  | String c s' => negb (p c) && free_of p s'
  end.

(** The names of a list that the catalog describes, and their blocks. *)
Definition described (catalog : dict) (name : string) : bool :=
  match dict_get catalog name with
  | Some desc => truthy desc
  | None => false
  end.

Definition block_of (catalog : dict) (name : string) : string :=
  product_block name (default "" (dict_get catalog name)).

(** The request that summarizes one keyword. *)
Definition summary_request (kw : string) : request :=
  ChatCompletion "gpt-4" (summary_prompt kw) 60 60.

(** The bullet of a keyword, given the service's answer to its request. *)
Definition bullet_for (kw : string) (answer : result (option string)) : string :=
  match answer with
  | Ok (Some text) => full_bullet kw (strip text)
  | _ => bare_bullet kw
  end.

(** The link the loop body adds for a kept line. *)
Definition line_link (line : string) : string * string :=
  match split1 " - " line with
  | [p0; p1] => (strip p0, strip p1)
  | _ => (strip line, strip line)
  end.

(** The request the inspiration search sends. *)
Definition search_request (keywords : list string) : request :=
  WebSearch "gpt-4.1" (search_input keywords).

(** A world and a catalog to run the workflow on: the service answers every
    request with the same text, and the i-th raw draw is [i]. *)
Definition demo_world : World := {|
  chat_completion := λ _ _, Ok (Some "Photo Booths, quiz game");
  web_search := λ _ _, Ok "Booth ideas - http://x.com";
  raw_draw := λ i, i
|}.

Definition demo_catalog : dict :=
  [("iboothme AI Booth", "An AI photo booth.");
   ("iboothme Vending", "A smart vending machine.");
   ("iboothme Audio", "An audio booth.");
   ("iboothme Mosaic", "");
   ("iboothme Sticker", "A sticker station.")].

(** The keywords of a raw answer, in the words of the specification: every
    fragment between commas and line feeds, trimmed and lower-cased, the
    empty ones left out. *)
Definition keywords_of (raw : string) : list string :=
  List.filter (λ kw, negb (String.eqb kw ""))
    (List.map (λ frag, lower (strip frag)) (split_at comma_or_newline raw)).

(** What a keyword extractor returns for an answer of the service. *)
Definition keywords_result (answer : result (option string)) : result (list string) :=
  match answer with
  | Ok (Some raw) => Ok (keywords_of raw)
  | Ok None => Raise (Exn "TypeError" "expected string or bytes-like object, got 'NoneType'")
  | Raise e => Raise e
  end.

(** The state after one more request. *)
Definition sent (st : state) (rq : request) : state :=
  State (trace st ++ [rq]) (draws st).

(** The bullets of a list of keywords, the first request being sent after
    [history]. *)
Fixpoint bullets_from (W : World) (history : list request) (kws : list string)
  : list string :=
  match kws with
  | [] => []
  | kw :: rest =>
      bullet_for kw (chat_completion W history (summary_request kw))
      :: bullets_from W (history ++ [summary_request kw]) rest
  end.

(** The demo world with the inspiration search out of reach. *)
Definition offline_search_world : World := {|
  chat_completion := chat_completion demo_world;
  web_search := λ _ _, Raise (Exn "APIConnectionError" "Connection error.");
  raw_draw := raw_draw demo_world
|}.

(** The demo world whose service fails on the keyword "quiz game". *)
Definition flaky_summary_world : World := {|
  chat_completion := λ _ rq,
    match rq with
    | ChatCompletion _ content _ _ =>
        if String.eqb content (summary_prompt "quiz game")
        then Raise (Exn "APITimeoutError" "Request timed out.")
        else Ok (Some " An idea. ")
    | WebSearch _ _ => Ok None
    end;
  web_search := web_search demo_world;
  raw_draw := raw_draw demo_world
|}.

(** The requirement the prompt always carries. *)
Definition must_include_games : string :=
  "You must include:" +:+ nl +:+ "- At least two game-related ideas" +:+ nl.



(** The request the base keyword extraction sends. *)
Definition extract_request (paragraph : string) : request :=
  ChatCompletion "gpt-4" (extract_keywords_prompt paragraph) 70 200.

(** The request a link's keyword extraction sends. *)
Definition link_request (l : string * string) : request :=
  ChatCompletion "gpt-4" (title_and_link_prompt l.1 l.2) 60 150.

(** The idea count the next raw draw selects from [5, 6, 7, 8]. *)
Definition drawn_idea_count (W : World) (st : state) : nat :=
  5 + raw_draw W (draws st) `mod` 4.

(** The request of the idea generation stage entered in state [st]. *)
Definition ideas_request (W : World) (paragraph product_info : string)
    (links : list (string * string)) (all_kw : list string) (st : state) : request :=
  ChatCompletion "gpt-4"
    (ideas_prompt paragraph product_info links all_kw (drawn_idea_count W st))
    95 1500.


(** The demo world with the chat completions out of reach. *)
Definition offline_chat_world : World := {|
  chat_completion := λ _ _, Raise (Exn "APIConnectionError" "Connection error.");
  web_search := web_search demo_world;
  raw_draw := raw_draw demo_world
|}.

(** The demo world whose service answers the keyword extractions only. *)
Definition extraction_only_world : World := {|
  chat_completion := λ _ rq,
    match rq with
    | ChatCompletion _ _ temperature _ =>
        if Nat.eqb temperature 95
        then Raise (Exn "RateLimitError" "Rate limit reached.")
        else Ok (Some "Photo Booths, quiz game")
    | WebSearch _ _ => Ok None
    end;
  web_search := web_search demo_world;
  raw_draw := raw_draw demo_world
|}.


(** The demo world whose service fails on the keyword extraction of a
    link (the requests with temperature 0.6 and 150 tokens). *)
Definition link_failure_world : World := {|
  chat_completion := λ _ rq,
    match rq with
    | ChatCompletion _ _ _ max_tokens =>
        if Nat.eqb max_tokens 150
        then Raise (Exn "APITimeoutError" "Request timed out.")
        else Ok (Some "Photo Booths, quiz game")
    | WebSearch _ _ => Ok None
    end;
  web_search := web_search demo_world;
  raw_draw := raw_draw demo_world
|}.

(** ** Facts about strings *)

Lemma str_app_cons (c : ascii) (a b : string) :
  String c a +:+ b = String c (a +:+ b).
Proof. done. Qed.


Lemma str_app_nil_r (s : string) : s +:+ "" = s.
Proof.
  induction s as [|c s IH]; [done|]. by rewrite str_app_cons, IH.
Qed.

Lemma str_app_assoc (a b c : string) : (a +:+ b) +:+ c = a +:+ b +:+ c.
Proof.
  induction a as [|x a IH]; [done|]. by rewrite !str_app_cons, IH.
Qed.


Lemma unlines_app (xs ys : list string) :
  unlines (xs ++ ys) = unlines xs +:+ unlines ys.
Proof.
  induction xs as [|x xs IH]; [done|].
  cbn [unlines app]. rewrite IH. by rewrite !str_app_assoc.
Qed.



Lemma startswith_occurs (p s : string) :
  startswith p s = true ↔ ∃ t, s = p +:+ t.
Proof.
  revert s. induction p as [|a p IH]; intros s; cbn.
  - split; [intros _; by exists s|done].
  - destruct s as [|b s].
    + split; [done|]. by intros [t Ht].
    + destruct (Ascii.eqb_spec a b) as [->|Hne].
      * rewrite IH. split; intros [t Ht]; exists t.
        -- by rewrite Ht.
        -- by injection Ht.
      * split; [done|]. intros [t Ht]. injection Ht as Hab _. by destruct Hne.
Qed.

Lemma contains_occurs (needle s : string) :
  contains needle s = true ↔ occurs needle s.
Proof.
  induction s as [|c s IH]; cbn.
  - rewrite orb_false_r, startswith_occurs. split.
    + intros [t Ht]. by exists "", t.
    + intros ([|x a] & b & Hab); [by exists b|done].
  - rewrite orb_true_iff, IH, startswith_occurs. split.
    + intros [[t Ht]|(a & b & Hab)].
      * by exists "", t.
      * exists (String c a), b. by rewrite Hab.
    + intros ([|x a] & b & Hab).
      * left. by exists b.
      * right. injection Hab as _ Hab. by exists a, b.
Qed.





Lemma split_at_spec (p : ascii → bool) (s : string) :
  ∃ seps, length (split_at p s) = S (length seps) ∧
          forallb p seps = true ∧
          forallb (free_of p) (split_at p s) = true ∧
          weave (split_at p s) seps = s.
Proof.
  induction s as [|c s (seps & Hlen & Hseps & Hfree & Hw)].
  - by exists [].
  - cbn [split_at]. destruct (p c) eqn:Hc.
    + exists (c :: seps). cbn. rewrite Hlen, Hc, Hseps, Hfree, Hw. done.
    + destruct (split_at p s) as [|w ws]; [done|]. exists seps.
      cbn in Hfree. apply andb_prop in Hfree as [Hw1 Hws].
      cbn. rewrite Hc, Hw1, Hws. repeat split; [done..|].
      destruct seps as [|c' cs]; cbn in *; [by rewrite Hw|].
      rewrite str_app_cons. by rewrite Hw.
Qed.

Lemma str_app_same_length (a b c d : string) :
  a +:+ b = c +:+ d → String.length a = String.length c → a = c ∧ b = d.
Proof.
  revert c. induction a as [|x a IH]; intros [|y c]; try done.
  rewrite !str_app_cons. intros [= -> Heq] [= Hlen].
  destruct (IH _ Heq Hlen) as [-> ->]. done.
Qed.

Lemma first_split_unique (sep s l r l' r' : string) :
  first_split sep s l r → first_split sep s l' r' → l = l' ∧ r = r'.
Proof.
  intros [Hs Hmin] [Hs' Hmin'].
  pose proof (Hmin _ _ Hs') as H1. pose proof (Hmin' _ _ Hs) as H2.
  rewrite Hs in Hs'.
  destruct (str_app_same_length _ _ _ _ Hs' ltac:(lia)) as [-> Hr].
  split; [done|]. by apply (inj (String.app sep)) in Hr.
Qed.

(** A line stands for one link only. *)
Lemma link_of_line_functional (line : string) (a b : string * string) :
  link_of_line line a → link_of_line line b → a = b.
Proof.
  intros [(l & r & Hf & ->)|[Hno ->]] [(l' & r' & Hf' & ->)|[Hno' ->]].
  - by destruct (first_split_unique _ _ _ _ _ _ Hf Hf') as [-> ->].
  - destruct Hno'. destruct Hf as [-> _]. by exists l, r.
  - destruct Hno. destruct Hf' as [-> _]. by exists l', r'.
  - done.
Qed.

(** The string operations on a few texts, as Python evaluates them. *)

Example strip_example : strip (nl +:+ "  a b " +:+ nl) = "a b".
Proof. reflexivity. Qed.

Example lower_example : lower "Photo BOOTHS 3D" = "photo booths 3d".
Proof. reflexivity. Qed.

Example title_example : title "smart vending 3d game" = "Smart Vending 3D Game".
Proof. reflexivity. Qed.

Example split_at_example :
  split_at comma_or_newline "a,,b," = ["a"; ""; "b"; ""].
Proof. reflexivity. Qed.

Example split1_example : split1 " - " "A - B - C" = ["A"; "B - C"].
Proof. reflexivity. Qed.

Example split1_absent_example : split1 " - " "A -B" = ["A -B"].
Proof. reflexivity. Qed.

Example join_example : join ", " ["a"; "b"; "c"] = "a, b, c".
Proof. reflexivity. Qed.

(** ** The validation gate *)



(** ** The inspiration-link parser *)

Lemma scan_line_eq (results : list (string * string)) (line : string) :
  scan_line results line =
  if contains "http" line then results ++ [line_link line] else results.
Proof.
  unfold scan_line, line_link.
  destruct (contains "http" line); [|done].
  by destruct (split1 " - " line) as [|p0 [|p1 [|p2 ps]]].
Qed.

Lemma scan_lines_eq (lines : list string) (results : list (string * string)) :
  foldl scan_line results lines =
  results ++ List.map line_link (List.filter (contains "http") lines).
Proof.
  revert results. induction lines as [|line lines IH]; intros results; cbn.
  - by rewrite app_nil_r.
  - rewrite IH, scan_line_eq. destruct (contains "http" line); [|done].
    cbn. by rewrite <- app_assoc.
Qed.

Lemma parse_links_eq (content : string) :
  parse_links content =
  List.map line_link
    (take 10 (List.filter (contains "http") (split_at (Ascii.eqb LF) content))).
Proof.
  unfold parse_links. rewrite scan_lines_eq. cbn [app].
  change (@List.map) with (@fmap list _). by rewrite fmap_take.
Qed.


(** ** The keyword extractors *)

Lemma lower_empty (s : string) : String.eqb (lower s) "" = negb (truthy s).
Proof. by destruct s. Qed.

Lemma normalize_keywords_of (raw : string) :
  normalize (split_at comma_or_newline raw) = keywords_of raw.
Proof.
  unfold normalize, keywords_of.
  induction (split_at comma_or_newline raw) as [|frag frags IH]; [done|].
  cbn. rewrite lower_empty, negb_involutive.
  destruct (truthy (strip frag)); cbn; by rewrite IH.
Qed.

Lemma extract_with (W : World) (prompt : string) (temperature max_tokens : nat)
    (st : state) :
  let rq := ChatCompletion "gpt-4" prompt temperature max_tokens in
  (raw ← chat W "gpt-4" prompt temperature max_tokens;
   parts ← re_split raw;
   ret (normalize parts)) st =
  (keywords_result (chat_completion W (trace st) rq), sent st rq).
Proof.
  unfold mbind, M_bind, bind, chat, keywords_result, sent. cbn.
  destruct (chat_completion W (trace st) _) as [[raw|]|e]; cbn; [|done..].
  by rewrite normalize_keywords_of.
Qed.


(** ** Merging the keywords *)

Lemma elem_of_merge_keywords (base_kw link_kw : list string) (kw : string) :
  kw ∈ merge_keywords base_kw link_kw ↔ kw ∈ base_kw ∨ kw ∈ link_kw.
Proof.
  unfold merge_keywords. rewrite merge_sort_Permutation.
  rewrite elem_of_elements, elem_of_list_to_set. apply elem_of_app.
Qed.

Lemma merge_keywords_same_set (a b c d : list string) :
  (∀ kw, kw ∈ a ++ b ↔ kw ∈ c ++ d) →
  merge_keywords a b = merge_keywords c d.
Proof.
  intros H. unfold merge_keywords. do 2 f_equal.
  apply set_eq. intros kw. by rewrite !elem_of_list_to_set.
Qed.

(** C4.  The merge of two keyword lists is sorted, holds no keyword twice,
    and holds exactly the keywords of the two lists; merging the result
    again with either list, or with itself, gives the result back. *)
Theorem merge_keywords_sorted_set (base_kw link_kw : list string) :
  let merged := merge_keywords base_kw link_kw in
  Sorted String.le merged ∧
  NoDup merged ∧
  (∀ kw, kw ∈ merged ↔ kw ∈ base_kw ∨ kw ∈ link_kw) ∧
  merge_keywords merged base_kw = merged ∧
  merge_keywords merged link_kw = merged ∧
  merge_keywords merged merged = merged ∧
  merge_keywords ["b"; "a"] ["a"; "c"] = ["a"; "b"; "c"].
Proof.
  intros merged. split; [apply (Sorted_merge_sort String.le)|].
  split.
  { unfold merged, merge_keywords. rewrite merge_sort_Permutation.
    apply NoDup_elements. }
  split; [intros kw; apply elem_of_merge_keywords|].
  assert (∀ other, (∀ kw, kw ∈ other → kw ∈ merged) →
                   merge_keywords merged other = merged) as Hagain.
  { intros other Hsub. apply merge_keywords_same_set. intros kw.
    specialize (Hsub kw). revert Hsub. unfold merged.
    rewrite !elem_of_app, !elem_of_merge_keywords. tauto. }
  split; [|split; [|split; [|by vm_compute]]]; apply Hagain; intros kw;
    unfold merged; rewrite elem_of_merge_keywords; tauto.
Qed.

(** ** The inspiration search is best effort *)

Lemma search_eq (W : World) (keywords : list string) (st : state) :
  search_similar_events_and_products_openai W keywords st =
  (Ok (match web_search W (trace st) (search_request keywords) with
       | Ok content => parse_links content
       | Raise _ => []
       end),
   sent st (search_request keywords)).
Proof.
  unfold search_similar_events_and_products_openai, mbind, M_bind, bind,
    attempt, responses, search_request, sent. cbn.
  by destruct (web_search W (trace st) _).
Qed.

(** C5.  The inspiration search returns a list of links whatever the
    retrieval call does: the parsed links when the call answers, the empty
    list when it raises, and the empty list for an empty answer.  When the call
    raises inside the workflow, the workflow goes on to idea generation with
    no link and with the base keywords, merged with nothing. *)
Theorem search_never_raises (W : World) (keywords : list string) (st : state) :
  search_similar_events_and_products_openai W keywords st =
    (Ok (match web_search W (trace st) (search_request keywords) with
         | Ok content => parse_links content
         | Raise _ => []
         end),
     sent st (search_request keywords)) ∧
  parse_links "" = [] ∧
  ∀ catalog paragraph names info base_kw st0 st1 e,
    truthy (strip paragraph) = true →
    select_products W catalog st = (Ok (names, info), st0) →
    extract_keywords W paragraph st0 = (Ok base_kw, st1) →
    web_search W (trace st1) (search_request base_kw) = Raise e →
    main_workflow W catalog paragraph st =
    ideas_and_summary W paragraph info [] (merge_keywords base_kw [])
      (sent st1 (search_request base_kw)).
Proof.
  split; [apply search_eq|]. split; [reflexivity|].
  intros catalog paragraph names info base_kw st0 st1 e Hp Hsel Hext Hfail.
  unfold main_workflow. rewrite Hp. cbn [negb].
  unfold mbind at 1, M_bind at 1, bind, attempt. rewrite Hsel.
  unfold mbind at 1, M_bind at 1, bind, attempt, gather_keywords.
  unfold mbind at 1, M_bind at 1, bind. rewrite Hext.
  unfold mbind at 1, M_bind at 1, bind. rewrite search_eq, Hfail.
  done.
Qed.

Lemma search_never_raises_witness :
  main_workflow offline_search_world demo_catalog "Launch party" start =
  ideas_and_summary offline_search_world "Launch party"
    (get_product_descriptions demo_catalog
       ["iboothme AI Booth"; "iboothme Vending"; "iboothme Audio"; "iboothme Mosaic"])
    [] (merge_keywords ["photo booths"; "quiz game"] [])
    (sent (sent (State [] 4)
             (ChatCompletion "gpt-4" (extract_keywords_prompt "Launch party") 70 200))
          (search_request ["photo booths"; "quiz game"])).
Proof.
  refine (proj2 (proj2 (search_never_raises offline_search_world [] start))
            demo_catalog "Launch party" _ _ _ _ _
            (Exn "APIConnectionError" "Connection error.") _ _ _ _);
    reflexivity.
Defined.

(** ** Summarizing the first ten keywords *)

Lemma summarize_keyword_eq (W : World) (summaries : list string) (kw : string)
    (st : state) :
  summarize_keyword W summaries kw st =
  (Ok (summaries ++
       [bullet_for kw (chat_completion W (trace st) (summary_request kw))]),
   sent st (summary_request kw)).
Proof.
  unfold summarize_keyword, mbind, M_bind, bind, attempt, chat, content_strip,
    summary_request, sent, bullet_for. cbn.
  by destruct (chat_completion W (trace st) _) as [[text|]|e].
Qed.

Lemma summarize_loop_eq (W : World) (kws summaries : list string) (st : state) :
  for_each kws (summarize_keyword W) summaries st =
  (Ok (summaries ++ bullets_from W (trace st) kws),
   State (trace st ++ List.map summary_request kws) (draws st)).
Proof.
  revert summaries st. induction kws as [|kw kws IH]; intros summaries st.
  - cbn. rewrite !app_nil_r. by destruct st.
  - cbn [for_each]. unfold mbind, M_bind, bind.
    rewrite summarize_keyword_eq, IH. cbn.
    by rewrite <- !app_assoc.
Qed.



Lemma ideas_and_summary_eq (W : World) (paragraph product_info : string)
    (links : list (string * string)) (all_kw : list string) (st : state) :
  ideas_and_summary W paragraph product_info links all_kw st =
  match generate_ideas W paragraph product_info links all_kw st with
  | (Ok ideas_md, st1) =>
      (Ok (assemble (join nl (bullets_from W (trace st1) (take 10 all_kw))) ideas_md),
       State (trace st1 ++ List.map summary_request (take 10 all_kw)) (draws st1))
  | (Raise e, st1) => (Ok ("❌ Error generating ideas: " +:+ exn_str e), st1)
  end.
Proof.
  unfold ideas_and_summary, mbind, M_bind, bind, attempt.
  destruct (generate_ideas W paragraph product_info links all_kw st)
    as [[ideas_md|e] st1]; [|done].
  unfold summarize. by rewrite summarize_loop_eq.
Qed.


(** One failing keyword among three: its bullet is bare, the others are
    complete. *)
Example summarize_flaky_example :
  (summarize flaky_summary_world ["photo booths"; "quiz game"; "smart vending"] start).1 =
  Ok ["- **Photo Booths**: An idea."; "- **Quiz Game**"; "- **Smart Vending**: An idea."].
Proof. reflexivity. Qed.

(** ** Sampling four products *)








(** ** The prompt of the idea generator *)

Lemma include_games_occurs (all_keywords : list string) :
  include_games all_keywords = true ↔
  ∃ kw, kw ∈ all_keywords ∧ occurs "game" kw.
Proof.
  unfold include_games. rewrite existsb_exists. split.
  - intros (kw & Hin & Hc). exists kw.
    by rewrite list_elem_of_In, <- contains_occurs.
  - intros (kw & Hin & Hc). exists kw.
    by rewrite <- list_elem_of_In, contains_occurs.
Qed.

Lemma ideas_prompt_lines_split (paragraph product_info : string)
    (links : list (string * string)) (all_keywords : list string)
    (idea_count : nat) :
  let lines := ideas_prompt_lines paragraph product_info links [] idea_count in
  ideas_prompt_lines paragraph product_info links all_keywords idea_count =
  take 17 lines
  ++ ["You must include:"; "- At least two game-related ideas"]
  ++ take 2 (List.skipn 19 lines)
  ++ [game_instruction all_keywords]
  ++ List.skipn 22 lines.
Proof. reflexivity. Qed.

Lemma ideas_prompt_split (paragraph product_info : string)
    (links : list (string * string)) (idea_count : nat) :
  ∃ before middle after, ∀ all_keywords,
    ideas_prompt paragraph product_info links all_keywords idea_count =
    (before +:+ must_include_games +:+ middle)
    +:+ game_instruction all_keywords +:+ after.
Proof.
  set (lines := ideas_prompt_lines paragraph product_info links [] idea_count).
  exists (nl +:+ unlines (take 17 lines)),
         (unlines (take 2 (List.skipn 19 lines))),
         (nl +:+ unlines (List.skipn 22 lines)).
  intros all_keywords. unfold ideas_prompt.
  rewrite ideas_prompt_lines_split. fold lines.
  rewrite !unlines_app. unfold must_include_games. cbn [unlines].
  rewrite !str_app_assoc. reflexivity.
Qed.

(** C8.  The derived instruction is the game clause exactly when some
    keyword of the merged list contains "game", and the empty text exactly
    when none does; it is the one part of the prompt that depends on the
    keywords, put on a line of its own after the required items. *)
Theorem game_instruction_iff (paragraph product_info : string)
    (links : list (string * string)) (all_keywords : list string)
    (idea_count : nat) :
  (game_instruction all_keywords = game_clause ↔
     ∃ kw, kw ∈ all_keywords ∧ occurs "game" kw) ∧
  (game_instruction all_keywords = "" ↔
     ¬ ∃ kw, kw ∈ all_keywords ∧ occurs "game" kw) ∧
  game_clause =
    "Include at least two game-related ideas (e.g., quiz game, vending challenge)." ∧
  ∃ before after, ∀ kws,
    ideas_prompt paragraph product_info links kws idea_count =
    before +:+ game_instruction kws +:+ after.
Proof.
  rewrite <- include_games_occurs. unfold game_instruction.
  destruct (include_games all_keywords).
  - split; [done|]. split; [|split; [done|]].
    + split; [done|]. by intros [].
    + destruct (ideas_prompt_split paragraph product_info links idea_count)
        as (before & middle & after & H). eauto.
  - split; [done|]. split; [|split; [done|]].
    + split; [by intros _ ?|done].
    + destruct (ideas_prompt_split paragraph product_info links idea_count)
        as (before & middle & after & H). eauto.
Qed.

(** C9.  Whatever the paragraph, the products, the links, the keywords and
    the idea count, the prompt holds the line "- At least two game-related
    ideas" right under "You must include:"; this is so in particular when
    the derived instruction is empty. *)
Theorem prompt_always_requires_games (paragraph product_info : string)
    (links : list (string * string)) (all_keywords : list string)
    (idea_count : nat) :
  occurs must_include_games
    (ideas_prompt paragraph product_info links all_keywords idea_count) ∧
  occurs "At least two game-related ideas"
    (ideas_prompt paragraph product_info links all_keywords idea_count) ∧
  game_instruction [] = "".
Proof.
  destruct (ideas_prompt_split paragraph product_info links idea_count)
    as (before & middle & after & H).
  split; [|split; [|done]].
  - exists before, (middle +:+ game_instruction all_keywords +:+ after).
    by rewrite H, !str_app_assoc.
  - exists (before +:+ "You must include:" +:+ nl +:+ "- "),
           (nl +:+ middle +:+ game_instruction all_keywords +:+ after).
    rewrite H. unfold must_include_games. by rewrite !str_app_assoc.
Qed.

(** ** The descriptions of the sampled products *)

Lemma append_description_eq (catalog : dict) (entries : list string) (name : string) :
  append_description catalog entries name =
  if described catalog name then entries ++ [block_of catalog name] else entries.
Proof.
  unfold append_description, described, block_of.
  by destruct (dict_get catalog name) as [desc|].
Qed.

Lemma descriptions_loop_eq (catalog : dict) (names entries : list string) :
  foldl (append_description catalog) entries names =
  entries ++ List.map (block_of catalog) (List.filter (described catalog) names).
Proof.
  revert entries. induction names as [|name names IH]; intros entries; cbn.
  - by rewrite app_nil_r.
  - rewrite IH, append_description_eq.
    destruct (described catalog name); [|done].
    cbn. by rewrite <- app_assoc.
Qed.

Lemma described_iff (catalog : dict) (name : string) :
  described catalog name = true ↔
  ∃ desc, dict_get catalog name = Some desc ∧ desc ≠ "".
Proof.
  unfold described. destruct (dict_get catalog name) as [[|c desc]|]; cbn.
  - split; [done|]. by intros (desc & [= <-] & Hne).
  - split; [|done]. intros _. by eexists.
  - split; [done|]. by intros (desc & ? & _).
Qed.

(** C10.  [get_product_descriptions] is a total function of the list of
    names: it returns the blocks "**name**", line feed, description of the
    names the catalog describes with a non-empty text, in the order of the
    list, joined by blank lines.  A name the catalog lacks, or describes with
    the empty text, leaves no block, so there may be fewer blocks than names;
    the selection stage raises only when the sampling does. *)
Theorem get_product_descriptions_skips
    (W : World) (catalog : dict) (product_names : list string) (st : state) :
  let kept := List.filter (described catalog) product_names in
  get_product_descriptions catalog product_names =
    join (nl +:+ nl) (List.map (block_of catalog) kept) ∧
  (∀ name, name ∈ kept ↔
     name ∈ product_names ∧
     ∃ desc, dict_get catalog name = Some desc ∧ desc ≠ "") ∧
  (∀ name desc, dict_get catalog name = Some desc →
     block_of catalog name = "**" +:+ name +:+ "**" +:+ nl +:+ desc) ∧
  length kept ≤ length product_names ∧
  select_products W catalog st =
    (let '(r, st') := random_sample W (dict_keys catalog) 4 st in
     (match r with
      | Ok names => Ok (names, get_product_descriptions catalog names)
      | Raise e => Raise e
      end, st')) ∧
  get_product_descriptions demo_catalog
    ["iboothme Mosaic"; "iboothme Audio"; "iboothme Drone"; "iboothme Vending"] =
    "**iboothme Audio**" +:+ nl +:+ "An audio booth." +:+ nl +:+ nl +:+
    "**iboothme Vending**" +:+ nl +:+ "A smart vending machine.".
Proof.
  intros kept. split.
  { unfold get_product_descriptions. by rewrite descriptions_loop_eq. }
  split.
  { intros name. unfold kept.
    rewrite list_elem_of_In, filter_In, <- list_elem_of_In.
    by rewrite described_iff. }
  split.
  { intros name desc H. unfold block_of. by rewrite H. }
  split; [apply filter_length_le|].
  split; [|reflexivity].
  unfold select_products, mbind, M_bind, bind.
  by destruct (random_sample W (dict_keys catalog) 4 st) as [[names|e] st'].
Qed.

(** * Further properties of the module *)

(** ** What a run sends and draws *)







Lemma extract_keywords_eq (W : World) (paragraph : string) (st : state) :
  extract_keywords W paragraph st =
  (keywords_result (chat_completion W (trace st) (extract_request paragraph)),
   sent st (extract_request paragraph)).
Proof. apply extract_with. Qed.

Lemma extract_link_eq (W : World) (l : string * string) (st : state) :
  extract_keywords_from_title_and_link W l.1 l.2 st =
  (keywords_result (chat_completion W (trace st) (link_request l)),
   sent st (link_request l)).
Proof. apply extract_with. Qed.




Lemma idea_count_lookup (r : nat) :
  [5; 6; 7; 8] !! (r `mod` 4) = Some (5 + r `mod` 4).
Proof.
  pose proof (Nat.mod_upper_bound r 4 ltac:(lia)) as H.
  destruct (r `mod` 4) as [|[|[|[|n]]]]; [done..|lia].
Qed.

Lemma generate_ideas_eq (W : World) (paragraph product_info : string)
    (links : list (string * string)) (all_kw : list string) (st : state) :
  generate_ideas W paragraph product_info links all_kw st =
  (chat_completion W (trace st)
     (ideas_request W paragraph product_info links all_kw st),
   State (trace st ++ [ideas_request W paragraph product_info links all_kw st])
         (S (draws st))).
Proof.
  unfold generate_ideas, random_choice, randbelow, mbind, M_bind, bind.
  cbn -[Nat.modulo lookup]. by rewrite idea_count_lookup.
Qed.





(** ** Which failures end the run *)

(** X3.  A failure of the base keyword extraction is fatal: when the first
    request raises, or is answered without a text, the workflow returns
    the message of the enrichment stage built from the exception and sends
    nothing else: no search, no generation, no summary. *)
Theorem extraction_failure_is_fatal (W : World) (catalog : dict)
    (paragraph : string) (st st0 : state) (names : list string) (info : string)
    (e : exn) :
  truthy (strip paragraph) = true →
  select_products W catalog st = (Ok (names, info), st0) →
  keywords_result (chat_completion W (trace st0) (extract_request paragraph)) = Raise e →
  main_workflow W catalog paragraph st =
  (Ok ("❌ Error in keyword extraction or web search: " +:+ exn_str e),
   sent st0 (extract_request paragraph)).
Proof.
  intros Hp Hsel Hfail. unfold main_workflow. rewrite Hp. cbn [negb].
  unfold mbind at 1, M_bind at 1, bind, attempt. rewrite Hsel.
  unfold mbind at 1, M_bind at 1, bind, gather_keywords.
  unfold mbind at 1, M_bind at 1, bind.
  by rewrite extract_keywords_eq, Hfail.
Qed.

Lemma extraction_failure_is_fatal_witness :
  main_workflow offline_chat_world demo_catalog "Launch party" start =
  (Ok "❌ Error in keyword extraction or web search: Connection error.",
   sent (State [] 4) (extract_request "Launch party")).
Proof.
  apply (extraction_failure_is_fatal offline_chat_world demo_catalog
           "Launch party" start (State [] 4)
           ["iboothme AI Booth"; "iboothme Vending"; "iboothme Audio"; "iboothme Mosaic"]
           (get_product_descriptions demo_catalog
              ["iboothme AI Booth"; "iboothme Vending"; "iboothme Audio"; "iboothme Mosaic"])
           (Exn "APIConnectionError" "Connection error."));
    reflexivity.
Defined.

(** X4.  A failure of the generation request is fatal and comes before any
    summary: the workflow returns the message of the generation stage, and
    the generation request is the last one sent. *)
Theorem generation_failure_is_fatal (W : World) (catalog : dict)
    (paragraph : string) (st st1 st2 : state) (names : list string)
    (info : string) (links : list (string * string)) (all_kw : list string)
    (e : exn) :
  truthy (strip paragraph) = true →
  select_products W catalog st = (Ok (names, info), st1) →
  gather_keywords W paragraph st1 = (Ok (links, all_kw), st2) →
  chat_completion W (trace st2) (ideas_request W paragraph info links all_kw st2)
    = Raise e →
  main_workflow W catalog paragraph st =
  (Ok ("❌ Error generating ideas: " +:+ exn_str e),
   State (trace st2 ++ [ideas_request W paragraph info links all_kw st2])
         (S (draws st2))).
Proof.
  intros Hp Hsel Hgather Hfail. unfold main_workflow. rewrite Hp. cbn [negb].
  unfold mbind at 1, M_bind at 1, bind, attempt. rewrite Hsel.
  unfold mbind at 1, M_bind at 1, bind. rewrite Hgather.
  by rewrite ideas_and_summary_eq, generate_ideas_eq, Hfail.
Qed.

Lemma generation_failure_is_fatal_witness :
  ∃ st2 rq,
    main_workflow extraction_only_world demo_catalog "Launch party" start =
    (Ok "❌ Error generating ideas: Rate limit reached.",
     State (trace st2 ++ [rq]) (S (draws st2))) ∧
    length (trace st2) = 3.
Proof.
  eexists _, _. split.
  - apply (generation_failure_is_fatal extraction_only_world demo_catalog
             "Launch party" start (State [] 4)
             (gather_keywords extraction_only_world "Launch party" (State [] 4)).2
             ["iboothme AI Booth"; "iboothme Vending"; "iboothme Audio"; "iboothme Mosaic"]
             (get_product_descriptions demo_catalog
                ["iboothme AI Booth"; "iboothme Vending"; "iboothme Audio"; "iboothme Mosaic"])
             [("Booth ideas", "http://x.com")]
             ["photo booths"; "quiz game"]
             (Exn "RateLimitError" "Rate limit reached."));
      reflexivity.
  - reflexivity.
Defined.

(** ** The idea count *)

Lemma ideas_prompt_count_occurs (paragraph product_info : string)
    (links : list (string * string)) (all_kw : list string) (idea_count : nat) :
  occurs ("generate " +:+ pretty idea_count +:+ " unique and diverse")
    (ideas_prompt paragraph product_info links all_kw idea_count).
Proof.
  set (lines := ideas_prompt_lines paragraph product_info links all_kw idea_count).
  assert (lines = take 5 lines
            ++ ["Based on the event description below, generate "
                +:+ pretty idea_count
                +:+ " unique and diverse iboothme-powered event ideas."]
            ++ List.skipn 6 lines) as Hsplit by reflexivity.
  unfold ideas_prompt. fold lines. rewrite Hsplit, !unlines_app. cbn [unlines].
  exists (nl +:+ unlines (take 5 lines)
          +:+ "Based on the event description below, "),
         (" iboothme-powered event ideas." +:+ nl +:+ unlines (List.skipn 6 lines)).
  rewrite !str_app_assoc. reflexivity.
Qed.

(** X5.  The generation stage makes one random draw and sends one request;
    the idea count written into its prompt is 5, 6, 7 or 8, and the choice
    among the four values never fails. *)
Theorem idea_count_between_5_and_8 (W : World) (paragraph product_info : string)
    (links : list (string * string)) (all_kw : list string) (st : state) :
  ∃ idea_count,
    5 ≤ idea_count ≤ 8 ∧
    random_choice W [5; 6; 7; 8] st = (Ok idea_count, State (trace st) (S (draws st))) ∧
    let rq := ChatCompletion "gpt-4"
                (ideas_prompt paragraph product_info links all_kw idea_count)
                95 1500 in
    generate_ideas W paragraph product_info links all_kw st =
      (chat_completion W (trace st) rq, State (trace st ++ [rq]) (S (draws st))) ∧
    occurs ("generate " +:+ pretty idea_count +:+ " unique and diverse")
      (ideas_prompt paragraph product_info links all_kw idea_count).
Proof.
  exists (drawn_idea_count W st).
  pose proof (Nat.mod_upper_bound (raw_draw W (draws st)) 4 ltac:(lia)) as Hlt.
  split; [unfold drawn_idea_count; lia|]. split.
  - unfold random_choice, randbelow, mbind, M_bind, bind.
    cbn -[Nat.modulo lookup]. by rewrite idea_count_lookup.
  - split; [apply generate_ideas_eq|apply ideas_prompt_count_occurs].
Qed.

(** ** The keywords an extractor returns are in normal form *)



















(** ** The merged keywords *)

(** X7.  The merge keeps the set of keywords and nothing else of its inputs:
    two pairs of lists with the same elements, in whatever order and however
    often repeated, merge to the same list.  In particular the merge is
    commutative, and it is never longer than its two inputs together. *)
Theorem merge_keywords_forgets_order (a b c d : list string) :
  (∀ kw, kw ∈ a ∨ kw ∈ b ↔ kw ∈ c ∨ kw ∈ d) →
  merge_keywords a b = merge_keywords c d ∧
  merge_keywords a b = merge_keywords b a ∧
  length (merge_keywords a b) ≤ length a + length b.
Proof.
  intros Hsame. split; [|split].
  - apply merge_keywords_same_set. intros kw. rewrite !elem_of_app. apply Hsame.
  - apply merge_keywords_same_set. intros kw. rewrite !elem_of_app. tauto.
  - unfold merge_keywords. rewrite merge_sort_Permutation, <- length_app.
    apply submseteq_length, NoDup_submseteq; [apply NoDup_elements|].
    intros kw. by rewrite elem_of_elements, elem_of_list_to_set.
Qed.

Lemma merge_keywords_forgets_order_witness :
  merge_keywords ["b"; "a"; "b"] ["c"] = merge_keywords ["c"; "a"] ["b"; "c"] ∧
  merge_keywords ["b"; "a"; "b"] ["c"] = merge_keywords ["c"] ["b"; "a"; "b"] ∧
  length (merge_keywords ["b"; "a"; "b"] ["c"]) ≤ 3 + 1.
Proof.
  apply (merge_keywords_forgets_order ["b"; "a"; "b"] ["c"] ["c"; "a"] ["b"; "c"]).
  intros kw. rewrite <- !elem_of_app. cbn [app].
  rewrite !elem_of_cons, !elem_of_nil. tauto.
Defined.

(** X8.  The game clause is triggered by the merged keywords exactly when a
    base keyword or a link keyword contains "game": a keyword found through a
    link alone is enough. *)
Theorem game_clause_from_either_source (base_kw link_kw : list string) :
  include_games (merge_keywords base_kw link_kw) =
  include_games base_kw || include_games link_kw.
Proof.
  apply eq_true_iff_eq.
  rewrite orb_true_iff, !include_games_occurs. split.
  - intros (kw & [Hin|Hin]%elem_of_merge_keywords & Hocc); [left|right]; eauto.
  - intros [(kw & Hin & Hocc)|(kw & Hin & Hocc)]; exists kw;
      rewrite elem_of_merge_keywords; auto.
Qed.

(** X9.  The keywords that get a summary are the ten first in lexicographic
    order, whatever order the service named them in: each of them is strictly
    below every keyword left without a summary. *)
Theorem summarized_keywords_are_smallest (base_kw link_kw : list string)
    (kw kw' : string) :
  kw ∈ take 10 (merge_keywords base_kw link_kw) →
  kw' ∈ List.skipn 10 (merge_keywords base_kw link_kw) →
  String.le kw kw' ∧ kw ≠ kw'.
Proof.
  intros Hin Hin'.
  set (merged := merge_keywords base_kw link_kw) in *.
  assert (StronglySorted String.le merged) as Hsorted
    by apply (StronglySorted_merge_sort String.le).
  assert (NoDup merged) as Hnd.
  { unfold merged, merge_keywords. rewrite merge_sort_Permutation.
    apply NoDup_elements. }
  rewrite <- (take_drop 10 merged) in Hsorted, Hnd. split.
  - by eapply (StronglySorted_app_1_elem_of String.le).
  - intros <-. apply NoDup_app in Hnd as (_ & Hdisj & _). by eapply Hdisj.
Qed.

Lemma summarized_keywords_are_smallest_witness :
  String.le "j" "k" ∧ "j" ≠ "k".
Proof.
  apply (summarized_keywords_are_smallest
           ["k"; "j"; "i"; "h"; "g"; "f"] ["e"; "d"; "c"; "b"; "a"; "f"]).
  - apply list_elem_of_In. vm_compute. tauto.
  - apply list_elem_of_In. vm_compute. tauto.
Defined.

(** ** Where "http" can stand *)

Lemma split_at_nonempty (p : ascii → bool) (s : string) : split_at p s ≠ [].
Proof.
  destruct (split_at_spec p s) as (seps & Hlen & _).
  intros Heq. by rewrite Heq in Hlen.
Qed.

Lemma startswith_empty (needle : string) :
  needle ≠ "" → startswith needle "" = false.
Proof. by destruct needle. Qed.

Lemma startswith_first_fragment (p : ascii → bool) (needle s w : string)
    (ws : list string) :
  free_of p needle = true → split_at p s = w :: ws →
  startswith needle s = startswith needle w.
Proof.
  revert s w ws. induction needle as [|a needle IH]; intros s w ws Hfree Hsplit;
    [done|].
  cbn in Hfree. apply andb_prop in Hfree as [Ha Hfree].
  destruct s as [|c s]; cbn in Hsplit.
  - by injection Hsplit as <- _.
  - destruct (p c) eqn:Hc.
    + injection Hsplit as <- _. cbn.
      destruct (Ascii.eqb_spec a c) as [->|]; [|done]. by rewrite Hc in Ha.
    + destruct (split_at p s) as [|w0 ws0] eqn:Hs;
        [by apply split_at_nonempty in Hs|].
      injection Hsplit as <- _. cbn.
      destruct (Ascii.eqb a c); [|done]. by eapply IH.
Qed.

Lemma contains_fragments (p : ascii → bool) (needle s : string) :
  needle ≠ "" → free_of p needle = true →
  contains needle s = existsb (contains needle) (split_at p s).
Proof.
  intros Hne Hfree. induction s as [|c s IH].
  - cbn. by rewrite !orb_false_r.
  - cbn [split_at]. destruct (p c) eqn:Hc.
    + cbn [existsb contains]. rewrite <- IH.
      rewrite (startswith_empty _ Hne). cbn [orb].
      rewrite (startswith_first_fragment p needle (String c s) ""
                 (split_at p s) Hfree), (startswith_empty _ Hne); [done|].
      cbn. by rewrite Hc.
    + destruct (split_at p s) as [|w ws] eqn:Hs;
        [by apply split_at_nonempty in Hs|].
      cbn [existsb] in *. cbn [contains]. rewrite IH.
      rewrite (startswith_first_fragment p needle (String c s) (String c w) ws Hfree).
      * by rewrite orb_assoc.
      * cbn. by rewrite Hc, Hs.
Qed.

Lemma filter_nil_existsb {A} (f : A → bool) (l : list A) :
  List.filter f l = [] ↔ existsb f l = false.
Proof.
  induction l as [|x l IH]; [done|]. cbn. destruct (f x); [done|]. apply IH.
Qed.

(** X10.  The parser returns no link exactly when "http" occurs nowhere in
    the answer of the search; an answer in which it occurs gives at least
    one link. *)
Theorem parse_links_empty_iff (content : string) :
  parse_links content = [] ↔ ¬ occurs "http" content.
Proof.
  rewrite parse_links_eq, <- contains_occurs.
  rewrite (contains_fragments (Ascii.eqb LF) "http" content) by done.
  rewrite not_true_iff_false, <- filter_nil_existsb.
  destruct (List.filter (contains "http") (split_at (Ascii.eqb LF) content)); [done|].
  cbn. split; intros H; discriminate H.
Qed.










(** ** A delimited list of keywords is read back as it was written *)








(** ** The product descriptions of a sampled catalog *)





(** ** The validation message and the other outcomes *)






(** ** A failing link is fatal *)

(** X15.  Unlike a failure of the search itself, a failure of the keyword
    extraction of a link found by the search is fatal: when the request for
    the first link raises, or is answered without a text, the workflow
    returns the message of the enrichment stage and sends nothing after that
    request. *)
Theorem link_failure_is_fatal (W : World) (catalog : dict) (paragraph : string)
    (st st0 : state) (names : list string) (info content : string)
    (base_kw : list string) (l : string * string) (rest : list (string * string))
    (e : exn) :
  let st1 := sent st0 (extract_request paragraph) in
  let st2 := sent st1 (search_request base_kw) in
  truthy (strip paragraph) = true →
  select_products W catalog st = (Ok (names, info), st0) →
  keywords_result (chat_completion W (trace st0) (extract_request paragraph))
    = Ok base_kw →
  web_search W (trace st1) (search_request base_kw) = Ok content →
  parse_links content = l :: rest →
  keywords_result (chat_completion W (trace st2) (link_request l)) = Raise e →
  main_workflow W catalog paragraph st =
  (Ok ("❌ Error in keyword extraction or web search: " +:+ exn_str e),
   sent st2 (link_request l)).
Proof.
  intros st1 st2 Hp Hsel Hbase Hsearch Hlinks Hfail.
  unfold main_workflow. rewrite Hp. cbn [negb].
  unfold mbind at 1, M_bind at 1, bind, attempt. rewrite Hsel.
  unfold mbind at 1, M_bind at 1, bind, gather_keywords.
  unfold mbind at 1, M_bind at 1, bind. rewrite extract_keywords_eq, Hbase.
  unfold mbind at 1, M_bind at 1, bind. fold st1. rewrite search_eq, Hsearch, Hlinks.
  fold st2. destruct l as [t u]. cbn [for_each].
  unfold mbind at 1, M_bind at 1, bind.
  unfold mbind at 1, M_bind at 1, bind.
  unfold extend_link_keywords at 1. unfold mbind at 1, M_bind at 1, bind.
  pose proof (extract_link_eq W (t, u) st2) as Heq. cbn [fst snd] in Heq.
  by rewrite Heq, Hfail.
Qed.

Lemma link_failure_is_fatal_witness :
  main_workflow link_failure_world demo_catalog "Launch party" start =
  (Ok "❌ Error in keyword extraction or web search: Request timed out.",
   sent (sent (sent (State [] 4) (extract_request "Launch party"))
              (search_request ["photo booths"; "quiz game"]))
        (link_request ("Booth ideas", "http://x.com"))).
Proof.
  apply (link_failure_is_fatal link_failure_world demo_catalog "Launch party"
           start (State [] 4)
           ["iboothme AI Booth"; "iboothme Vending"; "iboothme Audio"; "iboothme Mosaic"]
           (get_product_descriptions demo_catalog
              ["iboothme AI Booth"; "iboothme Vending"; "iboothme Audio"; "iboothme Mosaic"])
           "Booth ideas - http://x.com"
           ["photo booths"; "quiz game"]
           ("Booth ideas", "http://x.com") []
           (Exn "APITimeoutError" "Request timed out."));
    reflexivity.
Defined.

(** ** What the enrichment stage hands on *)





(** ** The label of a bullet *)







(** ** When no product is described *)

Lemma join_nil_iff (sep : string) (parts : list string) :
  Forall (λ part, part ≠ "") parts → (join sep parts = "" ↔ parts = []).
Proof.
  intros Hall. destruct Hall as [|[|c x] rest Hx Hrest]; [done|done|].
  split; [|done]. destruct rest; [done|]. cbn [join].
  rewrite str_app_cons. done.
Qed.

(** X18.  The product information is the empty text exactly when none of
    the names has a non-empty description in the catalog; in particular it is
    empty for the empty list of names. *)
Theorem no_description_iff (catalog : dict) (product_names : list string) :
  get_product_descriptions catalog product_names = "" ↔
  ∀ name, name ∈ product_names → described catalog name = false.
Proof.
  unfold get_product_descriptions. rewrite descriptions_loop_eq. cbn [app].
  rewrite join_nil_iff.
  - split.
    + intros Hnil%map_eq_nil name Hin%list_elem_of_In.
      destruct (described catalog name) eqn:Hd; [|done].
      assert (In name (List.filter (described catalog) product_names)) as Hf
        by (by apply filter_In).
      by rewrite Hnil in Hf.
    + intros Hnone. replace (List.filter _ _) with (@nil string); [done|].
      symmetry. apply filter_nil_existsb, not_true_iff_false.
      intros (name & Hin & Hd)%existsb_exists.
      rewrite (Hnone name) in Hd; [done|by apply list_elem_of_In].
  - apply Forall_forall. intros block (name & <- & _)%list_elem_of_In%in_map_iff.
    unfold block_of, product_block. by rewrite str_app_cons.
Qed.
